(** * flask/app.py: the application object

    A shallow embedding of [src/flask/app.py]: the helper
    [_make_timedelta], the constructor [Flask.__init__], the method
    [Flask._register_error_handler] and the [name] property.

    Python objects are modelled with the types of the source's
    annotations: the application object is a record with one field per
    instance attribute, a dictionary is a [gmap], an exception is a
    [Raise] result. *)

From Stdlib Require Import ZArith Ascii String List Lia.
From stdpp Require Import gmap strings list fin_maps.

Local Open Scope string_scope.

(** ** Python prelude *)

(** The exceptions the modelled code can raise; [Exception] stands for an
    exception of another class, raised by code outside this file. *)
Inductive exn : Type :=
| AttributeError (attr : string)
| IndexError
| OverflowError
| TypeError
| Exception (qualname : string).

(** The outcome of running a piece of Python code. *)
Inductive result (A : Type) : Type :=
| Ok (a : A)
| Raise (e : exn).

Arguments Ok {A} a.
Arguments Raise {A} e.

Definition rbind {A B : Type} (r : result A) (k : A -> result B) : result B :=
  match r with
  | Ok a => k a
  | Raise e => Raise e
  end.

Definition rmap {A B : Type} (f : A -> B) (r : result A) : result B :=
  rbind r (fun a => Ok (f a)).

Notation "x <- r ;; k" := (rbind r (fun x => k))
  (at level 100, r at next level, right associativity, only parsing).

(** *** datetime.timedelta

    A [timedelta] is stored normalised as days, seconds and
    microseconds, with [0 <= seconds < 86400] and
    [|days| <= 999999999]; the constructor raises [OverflowError]
    outside that range. *)

Record timedelta : Type := mk_timedelta {
  days : Z;
  seconds : Z;
  microseconds : Z
}.

Definition MAX_DELTA_DAYS : Z := 999999999.

(** [timedelta(seconds=n)] for an integer [n]: [divmod(n, 86400)], then the
    range check on the days. *)
Definition timedelta_of_seconds (n : Z) : result timedelta :=
  let d := (n / 86400)%Z in
  let s := (n mod 86400)%Z in
  if (Z.abs d <=? MAX_DELTA_DAYS)%Z
  then Ok {| days := d; seconds := s; microseconds := 0 |}
  else Raise OverflowError.

(** The duration of a [timedelta], in seconds, when it has no
    microseconds. *)
Definition total_seconds (d : timedelta) : Z :=
  (days d * 86400 + seconds d)%Z.

(** A [timedelta] of exactly [n] seconds. *)
Definition is_seconds (n : Z) (d : timedelta) : Prop :=
  total_seconds d = n /\ (0 <= seconds d < 86400)%Z /\ microseconds d = 0%Z.

(** ** _make_timedelta *)

(** The argument type [timedelta | int | None]. *)
Inductive td_value : Type :=
| TdNone
| TdDelta (d : timedelta)
| TdInt (n : Z).

Definition _make_timedelta (value : td_value) : result (option timedelta) :=
  match value with
  | TdNone => Ok None
  | TdDelta d => Ok (Some d)
  | TdInt n => rmap Some (timedelta_of_seconds n)
  end.

(** The integers [timedelta(seconds=n)] accepts. *)
Definition MIN_SECONDS : Z := (- MAX_DELTA_DAYS * 86400)%Z.
Definition MAX_SECONDS : Z := (MAX_DELTA_DAYS * 86400 + 86399)%Z.

(** *** str

    A [str] is a [string]; the operations below are the ones the [name]
    property uses. *)

(** [s.endswith(suffix)]: some tail of [s] is [suffix]. *)
Fixpoint endswith (s suffix : string) : bool :=
  String.eqb s suffix ||
  match s with
  | EmptyString => false
  | String _ s' => endswith s' suffix
  end.

(** [s[:n]] for [n >= 0]. *)
Fixpoint str_take (n : nat) (s : string) : string :=
  match n, s with
  | O, _ => EmptyString
  | S _, EmptyString => EmptyString
  | S n', String c s' => String c (str_take n' s')
  end.

(** [s[n:]] for [n >= 0]. *)
Fixpoint str_drop (n : nat) (s : string) : string :=
  match n, s with
  | O, _ => s
  | S _, EmptyString => EmptyString
  | S n', String _ s' => str_drop n' s'
  end.

(** [s[:-k]] for [k > 0]: the stop index [len(s) - k] is clamped at 0. *)
Definition slice_to_minus (k : nat) (s : string) : string :=
  str_take (String.length s - k) s.

(** [s.rfind(c)]: the index of the last occurrence of [c], or -1. *)
Fixpoint rfind (c : ascii) (s : string) : Z :=
  match s with
  | EmptyString => (-1)%Z
  | String a s' =>
      let r := rfind c s' in
      if (0 <=? r)%Z then (r + 1)%Z
      else if Ascii.eqb a c then 0%Z else (-1)%Z
  end.

(** [posixpath.basename(p)]: [i = p.rfind('/') + 1; return p[i:]]. *)
Definition posixpath_basename (p : string) : string :=
  let i := (rfind "/"%char p + 1)%Z in
  str_drop (Z.to_nat i) p.

(** [l[i]] on a list, for [i >= 0]. *)
Definition list_index {A : Type} (l : list A) (i : nat) : result A :=
  match l !! i with
  | Some x => Ok x
  | None => Raise IndexError
  end.

(** ** Values and the class namespace *)

(** The Python values the application object refers to.  Objects of
    classes defined outside this file are kept symbolic: [VInstance f args]
    is the object that calling such a callable [f] on [args] returns. *)
#[warnings="-register-all"] Inductive value : Type :=
| VNone
| VBool (b : bool)
| VStr (s : string)
| VClass (qualname : string)
| VFunction (qualname : string)
| VProperty (qualname : string)
| VBoundMethod (qualname : string)
| VInstance (callee : value) (args : list value).

(** [None], booleans, strings and property objects cannot be called. *)
Definition callable (v : value) : bool :=
  match v with
  | VNone | VBool _ | VStr _ | VProperty _ => false
  | VClass _ | VFunction _ | VBoundMethod _ | VInstance _ _ => true
  end.

(** The call of [callee] on [args]: calling a value that is not callable
    raises [TypeError]; the callables are defined outside this file, and
    [external callee args] is what calling one returns or raises. *)
Definition call (external : value -> list value -> result value)
    (callee : value) (args : list value) : result value :=
  if callable callee then external callee args else Raise TypeError.

Definition of_optional_str (o : option string) : value :=
  match o with
  | Some s => VStr s
  | None => VNone
  end.

(** The exception classes imported from [werkzeug.exceptions]; a class is
    identified by its qualified name. *)
Definition HTTPException : string := "werkzeug.exceptions.HTTPException".
Definition NotFound : string := "werkzeug.exceptions.NotFound".

(** [threading.Lock()] allocates a new lock object; the world counts the
    locks allocated so far, and a lock is identified by its number. *)
Definition world : Type := nat.

Definition Lock (w : world) : nat * world := (w, S w).

(** [dict.setdefault(key, default)] on the outer dictionary: the value
    stored under [key], and the dictionary with [default] stored there when
    the key was absent. *)
Definition setdefault {V : Type} (key : option string) (default : V)
    (d : gmap (option string) V) : V * gmap (option string) V :=
  match d !! key with
  | Some v => (v, d)
  | None => (default, <[key := default]> d)
  end.

(** ** The application object *)

Module Flask.

(** The namespace the body of [class Flask] builds (lines 162-279). *)
Definition namespace : gmap string value :=
  list_to_map [
    ("request_class", VClass "flask.wrappers.Request");
    ("response_class", VClass "flask.wrappers.Response");
    ("jinja_environment", VClass "flask.templating.Environment");
    ("app_ctx_globals_class", VClass "flask.ctx.AppContext");
    ("config_class", VClass "flask.config.Config");
    ("test_client_class", VNone);
    ("session_interface",
       VInstance (VClass "flask.sessions.SecureCookieSessionInterface") []);
    ("__init__", VFunction "Flask.__init__");
    ("_register_error_handler", VFunction "Flask._register_error_handler");
    ("name", VProperty "Flask.name");
    ("__repr__", VFunction "Flask.__repr__")
  ].

(** The four names the class body binds with [def]. *)
Definition is_method (attr : string) : bool :=
  bool_decide
    (attr ∈ ["__init__"; "_register_error_handler"; "name"; "__repr__"]).

(** The class of an object is the class of the file together with [rest],
    the bindings that come from elsewhere (a subclass, the remainder of a
    class body, or attributes assigned to the class later).  A binding in
    [rest] is found first, so it adds an attribute the file leaves out or
    replaces one of the class attributes of lines 162-188; the four
    methods stay the ones of the file.  [rest] binds plain values, classes
    and functions.  With [rest] empty the class is exactly the one the
    file writes. *)
Definition class_lookup (rest : gmap string value) (attr : string) : option value :=
  match rest !! attr with
  | Some v => if is_method attr then namespace !! attr else Some v
  | None => namespace !! attr
  end.

(** [self.attr] for an attribute that is not in the instance dictionary:
    the class attribute, a function being bound to [self] and any other
    value read as it is; with no such class attribute, [AttributeError]. *)
Definition getattr (rest : gmap string value) (attr : string) : result value :=
  match class_lookup rest attr with
  | Some (VFunction f) => Ok (VBoundMethod f)
  | Some v => Ok v
  | None => Raise (AttributeError attr)
  end.

Record t : Type := mk {
  _got_first_request : bool;
  _before_request_lock : nat;
  _before_request_funcs : gmap (option string) (list value);
  _after_request_funcs : gmap (option string) (list value);
  _teardown_request_funcs : gmap (option string) (list value);
  _teardown_appcontext_funcs : gmap (option string) (list value);
  _url_default_functions : gmap (option string) (list value);
  _url_value_preprocessors : gmap (option string) (list value);
  _template_context_processors : gmap (option string) (list value);
  _error_handlers : gmap (option string) (gmap string value);
  _before_first_request_funcs : list value;
  _name : string;
  url_map : value;
  static_folder : option string;
  static_url_path : option string;
  static_host : option string;
  host_matching : bool;
  subdomain_matching : bool;
  template_folder : option string;
  instance_path : option string;
  instance_relative_config : bool;
  root_path : option string;
  config : value;
  view_functions : gmap string value;
  blueprints : gmap string value;
  extensions : gmap string value;
  shell_context_processors : list value;
  _cli_commands : value
}.

(** [self._error_handlers = d]. *)
Definition set_error_handlers
    (d : gmap (option string) (gmap string value)) (self : t) : t :=
  {| _got_first_request := _got_first_request self;
     _before_request_lock := _before_request_lock self;
     _before_request_funcs := _before_request_funcs self;
     _after_request_funcs := _after_request_funcs self;
     _teardown_request_funcs := _teardown_request_funcs self;
     _teardown_appcontext_funcs := _teardown_appcontext_funcs self;
     _url_default_functions := _url_default_functions self;
     _url_value_preprocessors := _url_value_preprocessors self;
     _template_context_processors := _template_context_processors self;
     _error_handlers := d;
     _before_first_request_funcs := _before_first_request_funcs self;
     _name := _name self;
     url_map := url_map self;
     static_folder := static_folder self;
     static_url_path := static_url_path self;
     static_host := static_host self;
     host_matching := host_matching self;
     subdomain_matching := subdomain_matching self;
     template_folder := template_folder self;
     instance_path := instance_path self;
     instance_relative_config := instance_relative_config self;
     root_path := root_path self;
     config := config self;
     view_functions := view_functions self;
     blueprints := blueprints self;
     extensions := extensions self;
     shell_context_processors := shell_context_processors self;
     _cli_commands := _cli_commands self |}.

(** The setter of the [name] property: [self._name = value]. *)
Definition name_setter (value : string) (self : t) : t :=
  {| _got_first_request := _got_first_request self;
     _before_request_lock := _before_request_lock self;
     _before_request_funcs := _before_request_funcs self;
     _after_request_funcs := _after_request_funcs self;
     _teardown_request_funcs := _teardown_request_funcs self;
     _teardown_appcontext_funcs := _teardown_appcontext_funcs self;
     _url_default_functions := _url_default_functions self;
     _url_value_preprocessors := _url_value_preprocessors self;
     _template_context_processors := _template_context_processors self;
     _error_handlers := _error_handlers self;
     _before_first_request_funcs := _before_first_request_funcs self;
     _name := value;
     url_map := url_map self;
     static_folder := static_folder self;
     static_url_path := static_url_path self;
     static_host := static_host self;
     host_matching := host_matching self;
     subdomain_matching := subdomain_matching self;
     template_folder := template_folder self;
     instance_path := instance_path self;
     instance_relative_config := instance_relative_config self;
     root_path := root_path self;
     config := config self;
     view_functions := view_functions self;
     blueprints := blueprints self;
     extensions := extensions self;
     shell_context_processors := shell_context_processors self;
     _cli_commands := _cli_commands self |}.

(** [self._error_handlers.setdefault(None, {})[exception_class] = handler]:
    the inner dictionary is the object stored under [None], so the item
    assignment is seen through the outer dictionary. *)
Definition _register_error_handler
    (exception_class : string) (handler : value) (self : t) : t :=
  let '(inner, outer) := setdefault None ∅ (_error_handlers self) in
  set_error_handlers (<[None := <[exception_class := handler]> inner]> outer) self.

(** *** The constructor *)

(** [Flask.__init__].  The attributes assigned on lines 203-248 are the
    fields of the record; [_name] has no value until line 227 assigns
    through the [name] property, whose setter stores the argument there.
    The reads of attributes that are not instance attributes
    ([url_map_class], [config_class], [default_config] and the two
    [handle_*] methods) go through [getattr] and the three calls of lines
    228, 239 and 248 through [call], in the order in which the body
    evaluates them; the first that fails ends the construction with its
    exception. *)
Definition __init__
    (external : value -> list value -> result value)
    (rest : gmap string value) (w : world)
    (import_name : string)
    (static_url_path : option string)
    (static_folder : option string)
    (static_host : option string)
    (host_matching : bool)
    (subdomain_matching : bool)
    (template_folder : option string)
    (instance_path : option string)
    (instance_relative_config : bool)
    (root_path : option string) : result (t * world) :=
  let '(lock, w) := Lock w in
  url_map_class <- getattr rest "url_map_class" ;;
  url_map <- call external url_map_class [] ;;
  config_class <- getattr rest "config_class" ;;
  default_config <- getattr rest "default_config" ;;
  config <-
    call external config_class
      [of_optional_str root_path; default_config;
       VBool instance_relative_config] ;;
  _cli_commands <- call external (VClass "flask.cli.AppGroup") [] ;;
  let self :=
    name_setter import_name
      {| _got_first_request := false;
         _before_request_lock := lock;
         _before_request_funcs := ∅;
         _after_request_funcs := ∅;
         _teardown_request_funcs := ∅;
         _teardown_appcontext_funcs := ∅;
         _url_default_functions := ∅;
         _url_value_preprocessors := ∅;
         _template_context_processors := ∅;
         _error_handlers := ∅;
         _before_first_request_funcs := [];
         _name := "";
         url_map := url_map;
         static_folder := static_folder;
         static_url_path := static_url_path;
         static_host := static_host;
         host_matching := host_matching;
         subdomain_matching := subdomain_matching;
         template_folder := template_folder;
         instance_path := instance_path;
         instance_relative_config := instance_relative_config;
         root_path := root_path;
         config := config;
         view_functions := ∅;
         blueprints := ∅;
         extensions := ∅;
         shell_context_processors := [];
         _cli_commands := _cli_commands |} in
  handle_user_exception <- getattr rest "handle_user_exception" ;;
  let self := _register_error_handler NotFound handle_user_exception self in
  handle_http_exception <- getattr rest "handle_http_exception" ;;
  let self := _register_error_handler HTTPException handle_http_exception self in
  Ok (self, w).

(** *** The name property *)

Section Name.

(** [os.path.basename], which the platform chooses. *)
Variable os_path_basename : string -> string.

(** [sys.argv]. *)
Variable sys_argv : list string.

(** The getter of the [name] property. *)
Definition name (self : t) : result string :=
  if String.eqb (_name self) "__main__" then
    argv0 <- list_index sys_argv 0 ;;
    let base := os_path_basename argv0 in
    let base := if endswith base ".py" then slice_to_minus 3 base else base in
    Ok base
  else Ok (_name self).

End Name.

(** *** __repr__ *)

Section Repr.

(** [os.path.basename] and [sys.argv], as for [name]. *)
Variable os_path_basename : string -> string.
Variable sys_argv : list string.

(** [self.__class__.__name__], the name of the object's class, and the
    built-in [repr] on [str]. *)
Variable class_name : string.
Variable repr : string -> string.

(** [f"<{self.__class__.__name__} {self.name!r}>"]: reading [self.name]
    comes before the string is assembled, so its exception is the
    method's. *)
Definition __repr__ (self : t) : result string :=
  n <- name os_path_basename sys_argv self ;;
  Ok ("<" +:+ class_name +:+ " " +:+ repr n +:+ ">").

End Repr.

End Flask.

(** ** Registries *)

(** The seven registries of callables, in the order of lines 205-221. *)
Definition callable_registries (self : Flask.t) :=
  (Flask._before_request_funcs self,
   Flask._after_request_funcs self,
   Flask._teardown_request_funcs self,
   Flask._teardown_appcontext_funcs self,
   Flask._url_default_functions self,
   Flask._url_value_preprocessors self,
   Flask._template_context_processors self).

Definition no_callables :=
  (∅ : gmap (option string) (list value),
   ∅ : gmap (option string) (list value),
   ∅ : gmap (option string) (list value),
   ∅ : gmap (option string) (list value),
   ∅ : gmap (option string) (list value),
   ∅ : gmap (option string) (list value),
   ∅ : gmap (option string) (list value)).

(** The error-handler registry has a handler for class [E] under [key]. *)
Definition has_handler (self : Flask.t) (key : option string) (E : string) : Prop :=
  exists inner h,
    Flask._error_handlers self !! key = Some inner /\ inner !! E = Some h.

(** Every registry is empty. *)
Definition all_registries_empty (self : Flask.t) : Prop :=
  callable_registries self = no_callables /\ Flask._error_handlers self = ∅.

(** The fields of the object other than the error-handler registry. *)
Definition other_fields (self : Flask.t) :=
  (Flask._got_first_request self, Flask._before_request_lock self,
   callable_registries self, Flask._before_first_request_funcs self,
   Flask._name self, Flask.url_map self,
   (Flask.static_folder self, Flask.static_url_path self,
    Flask.static_host self, Flask.host_matching self,
    Flask.subdomain_matching self, Flask.template_folder self,
    Flask.instance_path self, Flask.instance_relative_config self,
    Flask.root_path self),
   Flask.config self, Flask.view_functions self, Flask.blueprints self,
   Flask.extensions self, Flask.shell_context_processors self,
   Flask._cli_commands self).

(** ** Sample inputs *)

(** External callables that all return, each a new symbolic object. *)
Definition sample_external (callee : value) (args : list value) : result value :=
  Ok (VInstance callee args).

(** A remainder of the class namespace that defines the four attributes
    the file's class body leaves out. *)
Definition sample_rest : gmap string value :=
  list_to_map [
    ("url_map_class", VClass "werkzeug.routing.Map");
    ("default_config", VInstance (VClass "werkzeug.datastructures.ImmutableDict") []);
    ("handle_user_exception", VFunction "Flask.handle_user_exception");
    ("handle_http_exception", VFunction "Flask.handle_http_exception")
  ].

(** The object [Flask("app")] is when the class namespace is completed by
    [sample_rest] and no lock was allocated before. *)
Definition sample_app : Flask.t :=
  {| Flask._got_first_request := false;
     Flask._before_request_lock := 0;
     Flask._before_request_funcs := ∅;
     Flask._after_request_funcs := ∅;
     Flask._teardown_request_funcs := ∅;
     Flask._teardown_appcontext_funcs := ∅;
     Flask._url_default_functions := ∅;
     Flask._url_value_preprocessors := ∅;
     Flask._template_context_processors := ∅;
     Flask._error_handlers :=
       {[ None := {[ NotFound := VBoundMethod "Flask.handle_user_exception";
                     HTTPException := VBoundMethod "Flask.handle_http_exception" ]} ]};
     Flask._before_first_request_funcs := [];
     Flask._name := "app";
     Flask.url_map := VInstance (VClass "werkzeug.routing.Map") [];
     Flask.static_folder := Some "static";
     Flask.static_url_path := None;
     Flask.static_host := None;
     Flask.host_matching := false;
     Flask.subdomain_matching := false;
     Flask.template_folder := Some "templates";
     Flask.instance_path := None;
     Flask.instance_relative_config := false;
     Flask.root_path := None;
     Flask.config :=
       VInstance (VClass "flask.config.Config")
         [VNone; VInstance (VClass "werkzeug.datastructures.ImmutableDict") [];
          VBool false];
     Flask.view_functions := ∅;
     Flask.blueprints := ∅;
     Flask.extensions := ∅;
     Flask.shell_context_processors := [];
     Flask._cli_commands := VInstance (VClass "flask.cli.AppGroup") [] |}.

(** The construction of [Flask("app")] with the defaults of the other
    parameters, in the completed class. *)
Definition sample_init : result (Flask.t * world) :=
  Flask.__init__ sample_external sample_rest 0 "app" None (Some "static") None
    false false (Some "templates") None false None.

(** ** Further vocabulary *)

(** The handlers registered for the application itself, under the key
    [None]; none when the key is absent. *)
Definition app_handlers (self : Flask.t) : gmap string value :=
  default ∅ (Flask._error_handlers self !! None).

(** The string [s] has an occurrence of the character [c]. *)
Definition has_char (c : ascii) (s : string) : Prop :=
  In c (list_ascii_of_string s).

(** * Properties *)

(** ** Strings and paths *)

Example basename_script :
  posixpath_basename "/srv/app/run.py" = "run.py".
Proof. reflexivity. Qed.

Example basename_no_dir : posixpath_basename "wsgi" = "wsgi".
Proof. reflexivity. Qed.

Example basename_trailing_slash : posixpath_basename "/srv/app/" = "".
Proof. reflexivity. Qed.

Lemma endswith_refl (s : string) : endswith s s = true.
Proof. destruct s; cbn [endswith]; rewrite String.eqb_refl; reflexivity. Qed.

Lemma endswith_app (pre suffix : string) : endswith (pre +:+ suffix) suffix = true.
Proof.
  induction pre as [|c pre IH].
  - apply endswith_refl.
  - change (String c pre +:+ suffix) with (String c (pre +:+ suffix)).
    cbn [endswith]. rewrite IH. apply orb_true_r.
Qed.

Lemma endswith_inv (s suffix : string) :
  endswith s suffix = true -> exists pre, s = pre +:+ suffix.
Proof.
  induction s as [|c s IH]; cbn [endswith]; intros H.
  - rewrite orb_false_r in H. apply String.eqb_eq in H. subst.
    exists "". reflexivity.
  - apply orb_true_iff in H. destruct H as [H|H].
    + apply String.eqb_eq in H. exists "". simpl. exact H.
    + destruct (IH H) as [pre ->]. exists (String c pre). reflexivity.
Qed.

Lemma endswith_iff (s suffix : string) :
  endswith s suffix = true <-> exists pre, s = pre +:+ suffix.
Proof.
  split; [apply endswith_inv|]. intros [pre ->]. apply endswith_app.
Qed.

Lemma length_str_app (s1 s2 : string) :
  String.length (s1 +:+ s2) = String.length s1 + String.length s2.
Proof. induction s1 as [|c s1 IH]; simpl; [reflexivity | rewrite IH; reflexivity]. Qed.

Lemma str_take_app (s1 s2 : string) : str_take (String.length s1) (s1 +:+ s2) = s1.
Proof. induction s1 as [|c s1 IH]; simpl; [reflexivity | rewrite IH; reflexivity]. Qed.

Lemma slice_to_minus_app (k : nat) (pre suffix : string) :
  String.length suffix = k -> slice_to_minus k (pre +:+ suffix) = pre.
Proof.
  intros <-. unfold slice_to_minus. rewrite length_str_app.
  replace (String.length pre + String.length suffix - String.length suffix)
    with (String.length pre) by lia.
  apply str_take_app.
Qed.

(** ** The sample construction *)

Example init_sample :
  Flask.__init__ sample_external sample_rest 0 "app" None (Some "static") None
    false false (Some "templates") None false None = Ok (sample_app, 1).
Proof. vm_compute. reflexivity. Qed.

Example init_as_written :
  Flask.__init__ sample_external ∅ 0 "app" None (Some "static") None false
    false (Some "templates") None false None =
  Raise (AttributeError "url_map_class").
Proof. vm_compute. reflexivity. Qed.

(** [None] is not callable: with [url_map_class = None] the constructor
    raises [TypeError] on line 228, before [default_config] is read. *)
Example init_url_map_class_None :
  Flask.__init__ sample_external {[ "url_map_class" := VNone ]} 0 "app" None
    (Some "static") None false false (Some "templates") None false None =
  Raise TypeError.
Proof. vm_compute. reflexivity. Qed.

(** An exception of the [url_map_class] call is the constructor's. *)
Example init_url_map_class_raises :
  Flask.__init__ (fun _ _ => Raise (Exception "builtins.RuntimeError"))
    sample_rest 0 "app" None (Some "static") None false false
    (Some "templates") None false None =
  Raise (Exception "builtins.RuntimeError").
Proof. vm_compute. reflexivity. Qed.

(** A [config_class] bound in [rest] replaces the one of the file. *)
Example getattr_config_class_rebound :
  Flask.getattr {[ "config_class" := VClass "myapp.Config" ]} "config_class" =
  Ok (VClass "myapp.Config").
Proof. vm_compute. reflexivity. Qed.

Example getattr_config_class_of_file :
  Flask.getattr ∅ "config_class" = Ok (VClass "flask.config.Config").
Proof. vm_compute. reflexivity. Qed.

(** ** Attribute lookup *)

Lemma namespace_undefined :
  Flask.namespace !! "url_map_class" = None /\
  Flask.namespace !! "default_config" = None /\
  Flask.namespace !! "handle_user_exception" = None /\
  Flask.namespace !! "handle_http_exception" = None.
Proof. repeat split; vm_compute; reflexivity. Qed.

(** The methods are names of the namespace. *)
Lemma is_method_defined (attr : string) :
  Flask.is_method attr = true -> is_Some (Flask.namespace !! attr).
Proof.
  unfold Flask.is_method. intros H. apply bool_decide_eq_true_1 in H.
  repeat (apply elem_of_cons in H as [->|H];
          [eexists; vm_compute; reflexivity|]).
  apply elem_of_nil in H. contradiction.
Qed.

Lemma getattr_undefined (rest : gmap string value) (attr : string) :
  Flask.namespace !! attr = None ->
  Flask.getattr rest attr =
    match rest !! attr with
    | Some (VFunction f) => Ok (VBoundMethod f)
    | Some v => Ok v
    | None => Raise (AttributeError attr)
    end.
Proof.
  intros H. unfold Flask.getattr, Flask.class_lookup.
  destruct (Flask.is_method attr) eqn:Hm.
  - apply is_method_defined in Hm as [v Hv]. congruence.
  - rewrite H. destruct (rest !! attr); reflexivity.
Qed.

Lemma call_not_callable
    (external : value -> list value -> result value) (callee : value)
    (args : list value) :
  callable callee = false -> call external callee args = Raise TypeError.
Proof. intros H. unfold call. rewrite H. reflexivity. Qed.

(** ** The error-handler registry *)

(** What a registration stores: under [None], the previous inner
    dictionary (empty when there was none) with the handler added. *)
Lemma error_handlers_register (E : string) (h : value) (self : Flask.t) :
  Flask._error_handlers (Flask._register_error_handler E h self) =
  <[None := <[E := h]> (default ∅ (Flask._error_handlers self !! None))]>
    (Flask._error_handlers self).
Proof.
  unfold Flask._register_error_handler, setdefault.
  destruct (Flask._error_handlers self !! None) as [inner|]; simpl.
  - reflexivity.
  - apply insert_insert_eq.
Qed.

(** ** The constructor, step by step *)

Section Construction.

Variable external : value -> list value -> result value.
Variable rest : gmap string value.
Variable w : world.
Variable import_name : string.
Variables static_url_path static_folder static_host : option string.
Variables host_matching subdomain_matching : bool.
Variables template_folder instance_path : option string.
Variable instance_relative_config : bool.
Variable root_path : option string.

(** A construction that completes has read the five attributes, got a
    result from each of the three calls and made the two registrations. *)
Lemma init_inv (self : Flask.t) (w' : world) :
  Flask.__init__ external rest w import_name static_url_path static_folder
      static_host host_matching subdomain_matching template_folder
      instance_path instance_relative_config root_path = Ok (self, w') ->
  exists url_map_class default_config h_user h_http
         url_map config_class config cli_commands,
    Flask.getattr rest "url_map_class" = Ok url_map_class /\
    Flask.getattr rest "default_config" = Ok default_config /\
    Flask.getattr rest "handle_user_exception" = Ok h_user /\
    Flask.getattr rest "handle_http_exception" = Ok h_http /\
    w' = S w /\
    self =
      Flask._register_error_handler HTTPException h_http
        (Flask._register_error_handler NotFound h_user
           (Flask.name_setter import_name
              (Flask.mk false w ∅ ∅ ∅ ∅ ∅ ∅ ∅ ∅ [] "" url_map static_folder
                 static_url_path static_host host_matching subdomain_matching
                 template_folder instance_path instance_relative_config
                 root_path config ∅ ∅ ∅ [] cli_commands))) /\
    call external url_map_class [] = Ok url_map /\
    Flask.getattr rest "config_class" = Ok config_class /\
    call external config_class
      [of_optional_str root_path; default_config;
       VBool instance_relative_config] = Ok config /\
    call external (VClass "flask.cli.AppGroup") [] = Ok cli_commands.
Proof.
  unfold Flask.__init__, Lock. cbv beta iota zeta.
  destruct (Flask.getattr rest "url_map_class") as [umc|e] eqn:E1;
    cbn [rbind]; [|discriminate].
  destruct (call external umc []) as [um|e] eqn:C1;
    cbn [rbind]; [|discriminate].
  destruct (Flask.getattr rest "config_class") as [cc|e] eqn:E0;
    cbn [rbind]; [|discriminate].
  destruct (Flask.getattr rest "default_config") as [dc|e] eqn:E2;
    cbn [rbind]; [|discriminate].
  destruct (call external cc
              [of_optional_str root_path; dc; VBool instance_relative_config])
    as [cfg|e] eqn:C2; cbn [rbind]; [|discriminate].
  destruct (call external (VClass "flask.cli.AppGroup") []) as [cli|e] eqn:C3;
    cbn [rbind]; [|discriminate].
  destruct (Flask.getattr rest "handle_user_exception") as [h1|e] eqn:E3;
    cbn [rbind]; [|discriminate].
  destruct (Flask.getattr rest "handle_http_exception") as [h2|e] eqn:E4;
    cbn [rbind]; [|discriminate].
  intros H. injection H as <- <-.
  exists umc, dc, h1, h2, um, cc, cfg, cli.
  repeat (split; [first [reflexivity | assumption]|]). reflexivity.
Qed.

End Construction.

(** ** Registrations *)

Lemma register_other_fields (E : string) (h : value) (self : Flask.t) :
  other_fields (Flask._register_error_handler E h self) = other_fields self.
Proof.
  unfold Flask._register_error_handler.
  destruct (setdefault None ∅ (Flask._error_handlers self)) as [inner outer].
  reflexivity.
Qed.

Lemma register_callable_registries (E : string) (h : value) (self : Flask.t) :
  callable_registries (Flask._register_error_handler E h self) =
  callable_registries self.
Proof.
  pose proof (register_other_fields E h self) as H.
  unfold other_fields in H. congruence.
Qed.

Lemma register_keeps_handlers (E : string) (h : value) (self : Flask.t)
    (key : option string) (E' : string) :
  has_handler self key E' ->
  has_handler (Flask._register_error_handler E h self) key E'.
Proof.
  intros (inner & h' & Hk & HE). unfold has_handler.
  rewrite error_handlers_register.
  destruct (decide (key = None)) as [->|Hne].
  - rewrite lookup_insert_eq, Hk. simpl.
    destruct (decide (E = E')) as [->|HneE].
    + exists (<[E' := h]> inner), h. split; [reflexivity|apply lookup_insert_eq].
    + exists (<[E := h]> inner), h'. split; [reflexivity|].
      rewrite lookup_insert_ne by done. exact HE.
  - exists inner, h'. split; [|exact HE].
    rewrite lookup_insert_ne by done. exact Hk.
Qed.

Lemma default_handlers_map (h_user h_http : value) (obj : Flask.t) :
  Flask._error_handlers obj = ∅ ->
  Flask._error_handlers
    (Flask._register_error_handler HTTPException h_http
       (Flask._register_error_handler NotFound h_user obj)) =
  {[ None := {[ NotFound := h_user; HTTPException := h_http ]} ]}.
Proof.
  intros Hempty. rewrite !error_handlers_register, Hempty.
  rewrite lookup_insert_eq, lookup_empty. simpl.
  rewrite insert_insert_eq, insert_empty. f_equal.
Qed.

(** ** Freshly constructed objects *)

Section Constructed.

Variable external : value -> list value -> result value.
Variable rest : gmap string value.
Variable w : world.
Variable import_name : string.
Variables static_url_path static_folder static_host : option string.
Variables host_matching subdomain_matching : bool.
Variables template_folder instance_path : option string.
Variable instance_relative_config : bool.
Variable root_path : option string.
Variable self : Flask.t.
Variable w' : world.

Hypothesis constructed :
  Flask.__init__ external rest w import_name static_url_path static_folder
    static_host host_matching subdomain_matching template_folder
    instance_path instance_relative_config root_path = Ok (self, w').

(** C1, as amended: immediately after construction the seven registries
    of callables are empty; the error-handler registry was created empty
    and holds what the constructor's own two registration calls stored,
    entries for [NotFound] and [HTTPException] under the key [None] and
    nothing else.  A registration call removes no handler and leaves the
    registries of callables as they are, and assigning the name changes
    no registry. *)
Theorem registries_after_construction :
  callable_registries self = no_callables /\
  (exists obj h_user h_http,
      Flask._error_handlers obj = ∅ /\
      self =
        Flask._register_error_handler HTTPException h_http
          (Flask._register_error_handler NotFound h_user obj)) /\
  (forall key E,
      has_handler self key E ->
      key = None /\ (E = NotFound \/ E = HTTPException)) /\
  (forall E h obj,
      callable_registries (Flask._register_error_handler E h obj) =
        callable_registries obj /\
      forall key E',
        has_handler obj key E' ->
        has_handler (Flask._register_error_handler E h obj) key E') /\
  (forall v obj,
      callable_registries (Flask.name_setter v obj) = callable_registries obj /\
      Flask._error_handlers (Flask.name_setter v obj) = Flask._error_handlers obj).
Proof.
  destruct (init_inv _ _ _ _ _ _ _ _ _ _ _ _ _ _ _ constructed)
    as (umc & dc & h1 & h2 & um & cc & cfg & cli
        & _ & _ & _ & _ & _ & Hself & Hum & Hcc & Hcfg & Hcli).
  split; [|split; [|split; [|split]]].
  - rewrite Hself, !register_callable_registries. reflexivity.
  - eexists _, h1, h2. split; [|exact Hself]. reflexivity.
  - intros key E (inner & h & Hk & HE).
    rewrite Hself, default_handlers_map in Hk by reflexivity.
    apply lookup_singleton_Some in Hk as [<- <-]. split; [reflexivity|].
    apply lookup_insert_Some in HE as [[<- _]|[_ HE]]; [left; reflexivity|].
    apply lookup_singleton_Some in HE as [<- _]. right; reflexivity.
  - intros E h obj. split.
    + apply register_callable_registries.
    + intros key E'. apply register_keeps_handlers.
  - intros v obj. split; reflexivity.
Qed.

(** C3: after construction the error-handler registry has the single key
    [None], under which exactly [NotFound] is mapped to the bound
    [handle_user_exception] and [HTTPException] to the bound
    [handle_http_exception]. *)
Theorem default_error_handlers :
  exists h_user h_http,
    Flask.getattr rest "handle_user_exception" = Ok h_user /\
    Flask.getattr rest "handle_http_exception" = Ok h_http /\
    NotFound <> HTTPException /\
    Flask._error_handlers self =
      {[ None := {[ NotFound := h_user; HTTPException := h_http ]} ]} /\
    (forall key E,
        has_handler self key E <->
        key = None /\ (E = NotFound \/ E = HTTPException)).
Proof.
  destruct (init_inv _ _ _ _ _ _ _ _ _ _ _ _ _ _ _ constructed)
    as (umc & dc & h1 & h2 & um & cc & cfg & cli
        & _ & _ & H1 & H2 & _ & Hself & Hum & Hcc & Hcfg & Hcli).
  assert (Heh : Flask._error_handlers self =
            {[ None := {[ NotFound := h1; HTTPException := h2 ]} ]}).
  { rewrite Hself. apply default_handlers_map. reflexivity. }
  exists h1, h2. repeat split; try assumption; try discriminate.
  - destruct H as (inner & h & Hk & HE). rewrite Heh in Hk.
    apply lookup_singleton_Some in Hk as [<- _]. reflexivity.
  - destruct H as (inner & h & Hk & HE). rewrite Heh in Hk.
    apply lookup_singleton_Some in Hk as [_ <-].
    apply lookup_insert_Some in HE as [[<- _]|[_ HE]]; [left; reflexivity|].
    apply lookup_singleton_Some in HE as [<- _]. right; reflexivity.
  - intros [-> HE]. unfold has_handler. rewrite Heh.
    eexists. rewrite lookup_singleton_eq.
    destruct HE as [->| ->].
    + exists h1. split; [reflexivity|]. apply lookup_insert_eq.
    + exists h2. split; [reflexivity|].
      rewrite lookup_insert_ne by discriminate. apply lookup_singleton_eq.
Qed.

(** C6: after construction the first-request flag is [False], and the
    constructor has allocated exactly one lock, a new one, which is the
    object's [_before_request_lock]. *)
Theorem first_request_bookkeeping :
  Flask._got_first_request self = false /\
  Lock w = (Flask._before_request_lock self, w') /\
  w' = S w /\
  (forall lock, lock < w -> lock <> Flask._before_request_lock self).
Proof.
  destruct (init_inv _ _ _ _ _ _ _ _ _ _ _ _ _ _ _ constructed)
    as (umc & dc & h1 & h2 & um & cc & cfg & cli
        & _ & _ & _ & _ & Hw & Hself & Hum & Hcc & Hcfg & Hcli).
  assert (Hflag : Flask._got_first_request self = false)
    by (rewrite Hself; reflexivity).
  assert (Hlock : Flask._before_request_lock self = w)
    by (rewrite Hself; reflexivity).
  subst w'. rewrite Hflag, Hlock. unfold Lock.
  repeat split. intros lock Hlt. lia.
Qed.

End Constructed.

(** C1, as stated, fails: after the construction [sample_init] the
    error-handler registry is not empty. *)
Lemma error_handlers_not_empty_after_construction :
  sample_init = Ok (sample_app, 1) /\ ~ all_registries_empty sample_app.
Proof.
  split; [vm_compute; reflexivity|].
  intros [_ Hempty].
  assert (Hnone : Flask._error_handlers sample_app !! None = None)
    by (rewrite Hempty; apply lookup_empty).
  cbn [Flask._error_handlers sample_app] in Hnone.
  rewrite lookup_singleton_eq in Hnone. discriminate.
Qed.

Lemma registries_after_construction_witness :
  sample_init = Ok (sample_app, 1) /\
  callable_registries sample_app = no_callables /\
  (forall key E,
      has_handler sample_app key E ->
      key = None /\ (E = NotFound \/ E = HTTPException)).
Proof.
  split; [vm_compute; reflexivity|].
  destruct (registries_after_construction sample_external sample_rest 0
              "app" None (Some "static") None false false (Some "templates")
              None false None sample_app 1) as (H1 & _ & H3 & _).
  - vm_compute; reflexivity.
  - split; [exact H1 | exact H3].
Defined.

Lemma default_error_handlers_witness :
  sample_init = Ok (sample_app, 1) /\
  exists h_user h_http,
    Flask.getattr sample_rest "handle_user_exception" = Ok h_user /\
    Flask.getattr sample_rest "handle_http_exception" = Ok h_http /\
    NotFound <> HTTPException /\
    Flask._error_handlers sample_app =
      {[ None := {[ NotFound := h_user; HTTPException := h_http ]} ]} /\
    (forall key E,
        has_handler sample_app key E <->
        key = None /\ (E = NotFound \/ E = HTTPException)).
Proof.
  split; [vm_compute; reflexivity|].
  apply (default_error_handlers sample_external sample_rest 0 "app" None
           (Some "static") None false false (Some "templates") None false
           None sample_app 1).
  vm_compute; reflexivity.
Defined.



(** A class whose [config_class] is rebound gets its configuration from
    the new one. *)
Example init_config_class_rebound :
  exists self,
    Flask.__init__ sample_external
      (<["config_class" := VClass "myapp.Config"]> sample_rest) 0 "app" None
      (Some "static") None false false (Some "templates") None false None =
      Ok (self, 1) /\
    Flask.config self =
      VInstance (VClass "myapp.Config")
        [VNone; VInstance (VClass "werkzeug.datastructures.ImmutableDict") [];
         VBool false].
Proof. eexists. split; vm_compute; reflexivity. Qed.

Lemma first_request_bookkeeping_witness :
  sample_init = Ok (sample_app, 1) /\
  Flask._got_first_request sample_app = false /\
  Lock 0 = (Flask._before_request_lock sample_app, 1) /\
  1 = S 0 /\
  (forall lock, lock < 0 -> lock <> Flask._before_request_lock sample_app).
Proof.
  split; [vm_compute; reflexivity|].
  apply (first_request_bookkeeping sample_external sample_rest 0 "app" None
           (Some "static") None false false (Some "templates") None false
           None sample_app 1).
  vm_compute; reflexivity.
Defined.

(** C4: with the class namespace as the file writes it, the construction
    never completes: [url_map_class], [default_config],
    [handle_user_exception] and [handle_http_exception] are not defined in
    it, and the constructor raises [AttributeError] at the first of them,
    [url_map_class], for every argument combination. *)
Theorem init_raises_attribute_error
    (external : value -> list value -> result value)
    (w : world) (import_name : string)
    (static_url_path static_folder static_host : option string)
    (host_matching subdomain_matching : bool)
    (template_folder instance_path : option string)
    (instance_relative_config : bool) (root_path : option string) :
  (Flask.namespace !! "url_map_class" = None /\
   Flask.namespace !! "default_config" = None /\
   Flask.namespace !! "handle_user_exception" = None /\
   Flask.namespace !! "handle_http_exception" = None) /\
  Flask.__init__ external ∅ w import_name static_url_path static_folder
    static_host host_matching subdomain_matching template_folder
    instance_path instance_relative_config root_path =
    Raise (AttributeError "url_map_class").
Proof.
  split; [exact namespace_undefined|]. reflexivity.
Qed.

(** ** _register_error_handler *)

Lemma register_eq (E : string) (h : value) (self : Flask.t) :
  Flask._register_error_handler E h self =
  Flask.set_error_handlers
    (<[None := <[E := h]> (default ∅ (Flask._error_handlers self !! None))]>
       (Flask._error_handlers self)) self.
Proof.
  unfold Flask._register_error_handler, setdefault.
  destruct (Flask._error_handlers self !! None) as [inner|]; simpl.
  - reflexivity.
  - rewrite insert_insert_eq. reflexivity.
Qed.

Lemma set_error_handlers_twice
    (d d' : gmap (option string) (gmap string value)) (self : Flask.t) :
  Flask.set_error_handlers d' (Flask.set_error_handlers d self) =
  Flask.set_error_handlers d' self.
Proof. reflexivity. Qed.

(** C7: [_register_error_handler(E, h)] maps [E] to [h] under the key
    [None], whatever was registered for [E] before; the other classes
    under [None], the other keys and the other fields of the object are as
    before; and a second registration of the same pair changes nothing. *)
Theorem register_error_handler_frame (self : Flask.t) (E : string) (h : value) :
  (exists inner,
      Flask._error_handlers (Flask._register_error_handler E h self) !! None =
        Some inner /\
      inner !! E = Some h /\
      forall E', E' <> E ->
        inner !! E' = default ∅ (Flask._error_handlers self !! None) !! E') /\
  (forall key, key <> None ->
      Flask._error_handlers (Flask._register_error_handler E h self) !! key =
      Flask._error_handlers self !! key) /\
  other_fields (Flask._register_error_handler E h self) = other_fields self /\
  Flask._register_error_handler E h (Flask._register_error_handler E h self) =
    Flask._register_error_handler E h self.
Proof.
  split; [|split; [|split]].
  - rewrite error_handlers_register, lookup_insert_eq.
    eexists. split; [reflexivity|]. split.
    + apply lookup_insert_eq.
    + intros E' Hne. rewrite lookup_insert_ne by congruence. reflexivity.
  - intros key Hne. rewrite error_handlers_register.
    rewrite lookup_insert_ne by congruence. reflexivity.
  - apply register_other_fields.
  - rewrite (register_eq E h (Flask._register_error_handler E h self)).
    rewrite error_handlers_register, lookup_insert_eq. simpl.
    rewrite !insert_insert_eq.
    rewrite (register_eq E h self) at 1.
    rewrite set_error_handlers_twice. symmetry. apply register_eq.
Qed.

Lemma register_error_handler_frame_witness :
  Some "admin" <> None /\
  Flask._error_handlers
    (Flask._register_error_handler NotFound (VFunction "page_not_found")
       sample_app) !! Some "admin" =
  Flask._error_handlers sample_app !! Some "admin".
Proof.
  split; [discriminate|].
  apply (proj1 (proj2 (register_error_handler_frame sample_app NotFound
                         (VFunction "page_not_found")))).
  discriminate.
Defined.

Example register_overwrites :
  Flask._error_handlers
    (Flask._register_error_handler NotFound (VFunction "page_not_found")
       sample_app) =
  {[ None := {[ NotFound := VFunction "page_not_found";
                HTTPException := VBoundMethod "Flask.handle_http_exception" ]} ]}.
Proof. vm_compute. reflexivity. Qed.

(** ** The name property *)

(** C2: reading [name] gives the stored import name when that is not
    ["__main__"]; when it is, with [script] the first entry of [sys.argv]
    and [base] its basename, it gives [base] without its last three
    characters when [base] ends with [".py"], and [base] itself when it
    does not. *)
Theorem name_spec
    (os_path_basename : string -> string) (sys_argv : list string)
    (self : Flask.t) :
  (Flask._name self <> "__main__" ->
   Flask.name os_path_basename sys_argv self = Ok (Flask._name self)) /\
  (forall script base,
      Flask._name self = "__main__" ->
      sys_argv !! 0 = Some script ->
      base = os_path_basename script ->
      (forall stem, base = stem +:+ ".py" ->
         Flask.name os_path_basename sys_argv self = Ok stem) /\
      ((forall stem, base <> stem +:+ ".py") ->
         Flask.name os_path_basename sys_argv self = Ok base)).
Proof.
  split.
  - intros Hne. unfold Flask.name.
    apply String.eqb_neq in Hne. rewrite Hne. reflexivity.
  - intros script base Hmain Hargv ->. unfold Flask.name, list_index.
    apply String.eqb_eq in Hmain. rewrite Hmain, Hargv. cbn [rbind].
    split.
    + intros stem Hstem. rewrite Hstem, endswith_app.
      rewrite slice_to_minus_app by reflexivity. reflexivity.
    + intros Hno.
      destruct (endswith (os_path_basename script) ".py") eqn:Hends;
        [|reflexivity].
      apply endswith_inv in Hends as [stem Hstem].
      exfalso. exact (Hno stem Hstem).
Qed.

Lemma name_spec_witness :
  Flask._name (Flask.name_setter "__main__" sample_app) = "__main__" /\
  ["/srv/app/run.py"] !! 0 = Some "/srv/app/run.py" /\
  "run.py" = posixpath_basename "/srv/app/run.py" /\
  "run.py" = "run" +:+ ".py" /\
  Flask.name posixpath_basename ["/srv/app/run.py"]
    (Flask.name_setter "__main__" sample_app) = Ok "run".
Proof.
  repeat (split; [reflexivity|]).
  apply (proj1 (proj2 (name_spec posixpath_basename ["/srv/app/run.py"]
                         (Flask.name_setter "__main__" sample_app))
                  "/srv/app/run.py" "run.py" eq_refl eq_refl eq_refl) "run").
  reflexivity.
Defined.

Example name_of_import_name :
  Flask.name posixpath_basename ["/srv/app/run.py"] sample_app = Ok "app".
Proof. reflexivity. Qed.

Example name_without_suffix :
  Flask.name posixpath_basename ["/usr/bin/gunicorn"]
    (Flask.name_setter "__main__" sample_app) = Ok "gunicorn".
Proof. reflexivity. Qed.

Example name_without_argv :
  Flask.name posixpath_basename [] (Flask.name_setter "__main__" sample_app) =
  Raise IndexError.
Proof. reflexivity. Qed.

(** ** _make_timedelta *)

Lemma timedelta_of_seconds_in_range (n : Z) :
  (MIN_SECONDS <= n <= MAX_SECONDS)%Z ->
  exists d, timedelta_of_seconds n = Ok d /\ is_seconds n d.
Proof.
  unfold MIN_SECONDS, MAX_SECONDS, MAX_DELTA_DAYS. intros Hn.
  unfold timedelta_of_seconds, MAX_DELTA_DAYS.
  pose proof (Z.div_mod n 86400 ltac:(lia)) as Hdm.
  pose proof (Z.mod_pos_bound n 86400 ltac:(lia)) as Hm.
  destruct (Z.leb_spec (Z.abs (n / 86400)) 999999999) as [_|Hbig].
  - eexists. split; [reflexivity|].
    unfold is_seconds, total_seconds. simpl. lia.
  - exfalso. lia.
Qed.

Lemma timedelta_of_seconds_out_of_range (n : Z) :
  (n < MIN_SECONDS \/ MAX_SECONDS < n)%Z ->
  timedelta_of_seconds n = Raise OverflowError.
Proof.
  unfold MIN_SECONDS, MAX_SECONDS, MAX_DELTA_DAYS. intros Hn.
  unfold timedelta_of_seconds, MAX_DELTA_DAYS.
  pose proof (Z.div_mod n 86400 ltac:(lia)) as Hdm.
  pose proof (Z.mod_pos_bound n 86400 ltac:(lia)) as Hm.
  destruct (Z.leb_spec (Z.abs (n / 86400)) 999999999) as [Hsmall|_].
  - exfalso. lia.
  - reflexivity.
Qed.

(** C8, as stated, fails: for the integer [10^15] the call raises
    [OverflowError] and returns no [timedelta]. *)
Lemma make_timedelta_overflow :
  _make_timedelta (TdInt 1000000000000000) = Raise OverflowError /\
  ~ (exists d, _make_timedelta (TdInt 1000000000000000) = Ok (Some d) /\
               is_seconds 1000000000000000 d).
Proof.
  assert (H : _make_timedelta (TdInt 1000000000000000) = Raise OverflowError)
    by (vm_compute; reflexivity).
  split; [exact H|]. intros (d & Hd & _). rewrite H in Hd. discriminate.
Qed.

(** C8, as amended: [_make_timedelta] returns [None] exactly for the
    argument [None]; a [timedelta] argument is returned as it is; an
    integer [n] between [MIN_SECONDS] and [MAX_SECONDS] gives the
    [timedelta] of exactly [n] seconds, and an integer outside that range
    makes the [timedelta] constructor raise [OverflowError]. *)
Theorem make_timedelta_spec :
  (forall value, _make_timedelta value = Ok None <-> value = TdNone) /\
  (forall d, _make_timedelta (TdDelta d) = Ok (Some d)) /\
  (forall n, (MIN_SECONDS <= n <= MAX_SECONDS)%Z ->
     exists d, _make_timedelta (TdInt n) = Ok (Some d) /\ is_seconds n d) /\
  (forall n, (n < MIN_SECONDS \/ MAX_SECONDS < n)%Z ->
     _make_timedelta (TdInt n) = Raise OverflowError).
Proof.
  split; [|split; [|split]].
  - intros value. split.
    + destruct value as [|d|n]; simpl; [reflexivity|discriminate|].
      unfold rmap, rbind.
      destruct (timedelta_of_seconds n); discriminate.
    + intros ->. reflexivity.
  - reflexivity.
  - intros n Hn.
    destruct (timedelta_of_seconds_in_range n Hn) as (d & Hd & Hsec).
    exists d. split; [|exact Hsec]. simpl. rewrite Hd. reflexivity.
  - intros n Hn. simpl.
    rewrite (timedelta_of_seconds_out_of_range n Hn). reflexivity.
Qed.

Lemma make_timedelta_spec_witness :
  (MIN_SECONDS <= 3600 <= MAX_SECONDS)%Z /\
  exists d, _make_timedelta (TdInt 3600) = Ok (Some d) /\ is_seconds 3600 d.
Proof.
  assert (Hn : (MIN_SECONDS <= 3600 <= MAX_SECONDS)%Z)
    by (vm_compute; split; discriminate).
  split; [exact Hn|].
  exact (proj1 (proj2 (proj2 make_timedelta_spec)) 3600%Z Hn).
Defined.

Example make_timedelta_negative :
  _make_timedelta (TdInt (-1)) =
  Ok (Some {| days := -1; seconds := 86399; microseconds := 0 |}).
Proof. reflexivity. Qed.

Example make_timedelta_max :
  _make_timedelta (TdInt MAX_SECONDS) =
  Ok (Some {| days := 999999999; seconds := 86399; microseconds := 0 |}).
Proof. vm_compute. reflexivity. Qed.

(** * Further properties *)

(** ** Registrations compose *)

Lemma app_handlers_register (E : string) (h : value) (self : Flask.t) :
  app_handlers (Flask._register_error_handler E h self) =
  <[E := h]> (app_handlers self).
Proof.
  unfold app_handlers. rewrite error_handlers_register, lookup_insert_eq.
  reflexivity.
Qed.

(** Two registrations in a row, as one assignment of the registry. *)
Lemma register_register (E E' : string) (h h' : value) (self : Flask.t) :
  Flask._register_error_handler E' h' (Flask._register_error_handler E h self) =
  Flask.set_error_handlers
    (<[None := <[E' := h']> (<[E := h]> (app_handlers self))]>
       (Flask._error_handlers self)) self.
Proof.
  rewrite (register_eq E' h' (Flask._register_error_handler E h self)).
  fold (app_handlers (Flask._register_error_handler E h self)).
  rewrite app_handlers_register, error_handlers_register.
  fold (app_handlers self). rewrite insert_insert_eq.
  rewrite (register_eq E h self). apply set_error_handlers_twice.
Qed.

(** X1: of two registrations for the same exception class the later one
    wins: the object is the one the later registration alone gives. *)
Theorem register_last_wins (E : string) (h1 h2 : value) (self : Flask.t) :
  Flask._register_error_handler E h2 (Flask._register_error_handler E h1 self) =
  Flask._register_error_handler E h2 self.
Proof.
  rewrite register_register, insert_insert_eq.
  symmetry. apply register_eq.
Qed.

(** X2: registrations for two different exception classes can be made in
    either order. *)
Theorem register_commute (E1 E2 : string) (h1 h2 : value) (self : Flask.t) :
  E1 <> E2 ->
  Flask._register_error_handler E1 h1 (Flask._register_error_handler E2 h2 self) =
  Flask._register_error_handler E2 h2 (Flask._register_error_handler E1 h1 self).
Proof.
  intros Hne. rewrite !register_register.
  rewrite (insert_insert_ne (app_handlers self) E1 E2) by exact Hne.
  reflexivity.
Qed.

Lemma register_commute_witness :
  NotFound <> HTTPException /\
  Flask._register_error_handler NotFound (VFunction "page_not_found")
    (Flask._register_error_handler HTTPException (VFunction "http_error")
       sample_app) =
  Flask._register_error_handler HTTPException (VFunction "http_error")
    (Flask._register_error_handler NotFound (VFunction "page_not_found")
       sample_app).
Proof.
  assert (Hne : NotFound <> HTTPException) by discriminate.
  split; [exact Hne|].
  exact (register_commute NotFound HTTPException (VFunction "page_not_found")
           (VFunction "http_error") sample_app Hne).
Defined.

(** X3: a registration adds the key [None] to the registry and the class
    to the application's handlers, and removes no key and no class. *)
Theorem register_dom (E : string) (h : value) (self : Flask.t) :
  dom (Flask._error_handlers (Flask._register_error_handler E h self)) =
    {[ None ]} ∪ dom (Flask._error_handlers self) /\
  dom (app_handlers (Flask._register_error_handler E h self)) =
    {[ E ]} ∪ dom (app_handlers self).
Proof.
  split.
  - rewrite error_handlers_register. apply dom_insert_L.
  - rewrite app_handlers_register. apply dom_insert_L.
Qed.

(** X4: a registration for a class that has no handler yet makes the
    number of the application's handlers one more; a registration for a
    class that has one leaves the number as it is. *)
Theorem register_size (E : string) (h : value) (self : Flask.t) :
  (app_handlers self !! E = None ->
   size (app_handlers (Flask._register_error_handler E h self)) =
     S (size (app_handlers self))) /\
  (is_Some (app_handlers self !! E) ->
   size (app_handlers (Flask._register_error_handler E h self)) =
     size (app_handlers self)).
Proof.
  rewrite app_handlers_register. split.
  - intros Hnone. apply map_size_insert_None. exact Hnone.
  - intros Hsome. apply map_size_insert_Some. exact Hsome.
Qed.

Lemma register_size_witness :
  app_handlers sample_app !! "builtins.KeyError" = None /\
  size (app_handlers
          (Flask._register_error_handler "builtins.KeyError"
             (VFunction "key_error") sample_app)) =
    S (size (app_handlers sample_app)).
Proof.
  assert (Hnone : app_handlers sample_app !! "builtins.KeyError" = None)
    by (vm_compute; reflexivity).
  split; [exact Hnone|].
  exact (proj1 (register_size "builtins.KeyError" (VFunction "key_error")
                  sample_app) Hnone).
Defined.

(** ** Failures of the first call *)

Section Outcome.

Variable external : value -> list value -> result value.
Variable rest : gmap string value.
Variable w : world.
Variable import_name : string.
Variables static_url_path static_folder static_host : option string.
Variables host_matching subdomain_matching : bool.
Variables template_folder instance_path : option string.
Variable instance_relative_config : bool.
Variable root_path : option string.

(** X5: a failure of the call on line 228 is the constructor's, whatever
    the other attributes of the class are, also when [default_config] is
    missing: the exception that calling [url_map_class] raises is the
    exception of the constructor, and a [url_map_class] bound to [None],
    a boolean or a string, which cannot be called, makes it raise
    [TypeError]. *)
Theorem init_outcome :
  (forall f e,
      Flask.getattr rest "url_map_class" = Ok f ->
      call external f [] = Raise e ->
      Flask.__init__ external rest w import_name static_url_path static_folder
        static_host host_matching subdomain_matching template_folder
        instance_path instance_relative_config root_path = Raise e) /\
  (forall v,
      rest !! "url_map_class" = Some v ->
      v = VNone \/ (exists b, v = VBool b) \/ (exists t, v = VStr t) ->
      Flask.__init__ external rest w import_name static_url_path static_folder
        static_host host_matching subdomain_matching template_folder
        instance_path instance_relative_config root_path = Raise TypeError).
Proof.
  assert (Hfirst : forall f e,
    Flask.getattr rest "url_map_class" = Ok f ->
    call external f [] = Raise e ->
    Flask.__init__ external rest w import_name static_url_path static_folder
      static_host host_matching subdomain_matching template_folder
      instance_path instance_relative_config root_path = Raise e).
  { intros f e Hf He. unfold Flask.__init__, Lock. cbv beta iota zeta.
    rewrite Hf. cbn [rbind]. rewrite He. reflexivity. }
  split; [exact Hfirst|].
  intros v Hv Hdata. apply (Hfirst v).
  - destruct namespace_undefined as (N1 & _).
    rewrite (getattr_undefined rest _ N1), Hv.
    destruct Hdata as [->|[[b ->]|[t ->]]]; reflexivity.
  - apply call_not_callable.
    destruct Hdata as [->|[[b ->]|[t ->]]]; reflexivity.
Qed.

End Outcome.

Lemma init_outcome_witness :
  ({[ "url_map_class" := VNone ]} : gmap string value) !! "url_map_class" =
    Some VNone /\
  Flask.__init__ sample_external {[ "url_map_class" := VNone ]} 0 "app" None
    (Some "static") None false false (Some "templates") None false None =
  Raise TypeError.
Proof.
  assert (Hv : ({[ "url_map_class" := VNone ]} : gmap string value)
                 !! "url_map_class" = Some VNone)
    by (vm_compute; reflexivity).
  split; [exact Hv|].
  exact (proj2 (init_outcome sample_external {[ "url_map_class" := VNone ]} 0
                  "app" None (Some "static") None false false
                  (Some "templates") None false None) VNone Hv
           (or_introl eq_refl)).
Defined.

(** ** More about freshly constructed objects *)

Section Fresh.

Variable external : value -> list value -> result value.
Variable rest : gmap string value.
Variable w : world.
Variable import_name : string.
Variables static_url_path static_folder static_host : option string.
Variables host_matching subdomain_matching : bool.
Variables template_folder instance_path : option string.
Variable instance_relative_config : bool.
Variable root_path : option string.
Variable self : Flask.t.
Variable w' : world.

Hypothesis constructed :
  Flask.__init__ external rest w import_name static_url_path static_folder
    static_host host_matching subdomain_matching template_folder
    instance_path instance_relative_config root_path = Ok (self, w').

(** X6: after construction the view functions, blueprints and extensions
    are empty dictionaries, the shell context processors and the
    before-first-request functions are empty lists, the URL map is what
    calling [url_map_class] without arguments returns and the CLI
    commands are what [cli.AppGroup()] returns. *)
Theorem init_containers :
  Flask.view_functions self = ∅ /\
  Flask.blueprints self = ∅ /\
  Flask.extensions self = ∅ /\
  Flask.shell_context_processors self = [] /\
  Flask._before_first_request_funcs self = [] /\
  call external (VClass "flask.cli.AppGroup") [] = Ok (Flask._cli_commands self) /\
  exists url_map_class,
    Flask.getattr rest "url_map_class" = Ok url_map_class /\
    call external url_map_class [] = Ok (Flask.url_map self).
Proof.
  destruct (init_inv _ _ _ _ _ _ _ _ _ _ _ _ _ _ _ constructed)
    as (umc & dc & h1 & h2 & um & cc & cfg & cli
        & Humc & _ & _ & _ & _ & Hself & Hum & _ & _ & Hcli).
  repeat (split; [rewrite Hself; reflexivity|]).
  split; [rewrite Hcli, Hself; reflexivity|].
  exists umc. split; [exact Humc|]. rewrite Hum, Hself. reflexivity.
Qed.

(** X7: a handler registered after construction is added to the two
    defaults, or replaces the default for its class: the registry then has
    the single key [None], with the defaults for [NotFound] and
    [HTTPException] overridden by the new handler. *)
Theorem register_after_init (E : string) (h : value) :
  exists h_user h_http,
    Flask.getattr rest "handle_user_exception" = Ok h_user /\
    Flask.getattr rest "handle_http_exception" = Ok h_http /\
    Flask._error_handlers (Flask._register_error_handler E h self) =
      {[ None := <[E := h]> {[ NotFound := h_user; HTTPException := h_http ]} ]}.
Proof.
  destruct (init_inv _ _ _ _ _ _ _ _ _ _ _ _ _ _ _ constructed)
    as (umc & dc & h1 & h2 & um & cc & cfg & cli
        & _ & _ & H1 & H2 & _ & Hself & Hum & Hcc & Hcfg & Hcli).
  exists h1, h2. split; [exact H1|]. split; [exact H2|].
  rewrite error_handlers_register.
  assert (Heh : Flask._error_handlers self =
            {[ None := {[ NotFound := h1; HTTPException := h2 ]} ]}).
  { rewrite Hself. apply default_handlers_map. reflexivity. }
  rewrite Heh, lookup_singleton_eq. cbn [default].
  apply insert_singleton_eq.
Qed.

(** X8: on a freshly constructed object whose import name is not
    ["__main__"], [name] is the import name whatever [sys.argv] holds,
    even nothing; with the import name ["__main__"] and an empty
    [sys.argv] reading [name] raises [IndexError]. *)
Theorem init_name
    (os_path_basename : string -> string) (sys_argv : list string) :
  (import_name <> "__main__" ->
   Flask.name os_path_basename sys_argv self = Ok import_name) /\
  (import_name = "__main__" ->
   Flask.name os_path_basename [] self = Raise IndexError).
Proof.
  destruct (init_inv _ _ _ _ _ _ _ _ _ _ _ _ _ _ _ constructed)
    as (umc & dc & h1 & h2 & um & cc & cfg & cli
        & _ & _ & _ & _ & _ & Hself & Hum & Hcc & Hcfg & Hcli).
  assert (Hname : Flask._name self = import_name)
    by (rewrite Hself; reflexivity).
  unfold Flask.name. rewrite Hname. split.
  - intros Hne. apply String.eqb_neq in Hne. rewrite Hne. reflexivity.
  - intros ->. reflexivity.
Qed.

(** X9: the next construction gets another lock: an object constructed
    right after this one, with any arguments and any class, has a
    [_before_request_lock] different from this one's. *)
Theorem init_locks_distinct
    (rest2 : gmap string value) (import_name2 : string)
    (static_url_path2 static_folder2 static_host2 : option string)
    (host_matching2 subdomain_matching2 : bool)
    (template_folder2 instance_path2 : option string)
    (instance_relative_config2 : bool) (root_path2 : option string)
    (self2 : Flask.t) (w2 : world) :
  Flask.__init__ external rest2 w' import_name2 static_url_path2 static_folder2
    static_host2 host_matching2 subdomain_matching2 template_folder2
    instance_path2 instance_relative_config2 root_path2 = Ok (self2, w2) ->
  Flask._before_request_lock self <> Flask._before_request_lock self2 /\
  w2 = S (S w).
Proof.
  intros constructed2.
  destruct (init_inv _ _ _ _ _ _ _ _ _ _ _ _ _ _ _ constructed)
    as (umc & dc & h1 & h2 & um & cc & cfg & cli
        & _ & _ & _ & _ & Hw & Hself & Hum & Hcc & Hcfg & Hcli).
  destruct (init_inv _ _ _ _ _ _ _ _ _ _ _ _ _ _ _ constructed2)
    as (umc' & dc' & h1' & h2' & um' & cc' & cfg' & cli'
        & _ & _ & _ & _ & Hw2 & Hself2 & Hum' & Hcc' & Hcfg' & Hcli').
  assert (Hl1 : Flask._before_request_lock self = w)
    by (rewrite Hself; reflexivity).
  assert (Hl2 : Flask._before_request_lock self2 = w')
    by (rewrite Hself2; reflexivity).
  rewrite Hl1, Hl2. split; lia.
Qed.

End Fresh.

Lemma init_containers_witness :
  sample_init = Ok (sample_app, 1) /\
  Flask.view_functions sample_app = ∅ /\
  Flask.blueprints sample_app = ∅ /\
  Flask.extensions sample_app = ∅ /\
  Flask.shell_context_processors sample_app = [] /\
  Flask._before_first_request_funcs sample_app = [] /\
  call sample_external (VClass "flask.cli.AppGroup") [] =
    Ok (Flask._cli_commands sample_app) /\
  exists url_map_class,
    Flask.getattr sample_rest "url_map_class" = Ok url_map_class /\
    call sample_external url_map_class [] = Ok (Flask.url_map sample_app).
Proof.
  split; [vm_compute; reflexivity|].
  apply (init_containers sample_external sample_rest 0 "app" None
           (Some "static") None false false (Some "templates") None false
           None sample_app 1).
  vm_compute; reflexivity.
Defined.

Lemma register_after_init_witness :
  sample_init = Ok (sample_app, 1) /\
  exists h_user h_http,
    Flask.getattr sample_rest "handle_user_exception" = Ok h_user /\
    Flask.getattr sample_rest "handle_http_exception" = Ok h_http /\
    Flask._error_handlers
      (Flask._register_error_handler NotFound (VFunction "page_not_found")
         sample_app) =
      {[ None := <[NotFound := VFunction "page_not_found"]>
                   {[ NotFound := h_user; HTTPException := h_http ]} ]}.
Proof.
  split; [vm_compute; reflexivity|].
  apply (register_after_init sample_external sample_rest 0 "app" None
           (Some "static") None false false (Some "templates") None false
           None sample_app 1).
  vm_compute; reflexivity.
Defined.

Lemma init_name_witness :
  sample_init = Ok (sample_app, 1) /\
  "app" <> "__main__" /\
  Flask.name posixpath_basename [] sample_app = Ok "app".
Proof.
  split; [vm_compute; reflexivity|]. split; [discriminate|].
  apply (init_name sample_external sample_rest 0 "app" None (Some "static")
           None false false (Some "templates") None false None sample_app 1).
  - vm_compute; reflexivity.
  - discriminate.
Defined.

Lemma init_locks_distinct_witness :
  sample_init = Ok (sample_app, 1) /\
  exists self2,
    Flask.__init__ sample_external sample_rest 1 "admin" None None None false
      false None None true None = Ok (self2, 2) /\
    Flask._before_request_lock sample_app <> Flask._before_request_lock self2 /\
    2 = S (S 0).
Proof.
  split; [vm_compute; reflexivity|].
  eexists. split; [vm_compute; reflexivity|].
  apply (init_locks_distinct sample_external sample_rest 0 "app" None
           (Some "static") None false false (Some "templates") None false
           None sample_app 1 ltac:(vm_compute; reflexivity)
           sample_rest "admin" None None None false false None None true
           None _ 2).
  vm_compute; reflexivity.
Defined.

(** ** Reading and assigning the name *)

(** X10: a name other than ["__main__"] that is assigned is the name that
    is read, whatever [sys.argv] holds; and assigning the old stored name
    again gives the old object back, so the assignment changes nothing
    but the stored name. *)
Theorem name_setter_getter
    (os_path_basename : string -> string) (sys_argv : list string)
    (v : string) (self : Flask.t) :
  v <> "__main__" ->
  Flask.name os_path_basename sys_argv (Flask.name_setter v self) = Ok v /\
  Flask.name_setter (Flask._name self) (Flask.name_setter v self) = self.
Proof.
  intros Hne. split.
  - unfold Flask.name. cbn [Flask.name_setter Flask._name].
    apply String.eqb_neq in Hne. rewrite Hne. reflexivity.
  - destruct self. reflexivity.
Qed.

Lemma name_setter_getter_witness :
  "admin" <> "__main__" /\
  Flask.name posixpath_basename [] (Flask.name_setter "admin" sample_app) =
    Ok "admin" /\
  Flask.name_setter (Flask._name sample_app)
    (Flask.name_setter "admin" sample_app) = sample_app.
Proof.
  assert (Hne : "admin" <> "__main__") by discriminate.
  split; [exact Hne|].
  exact (name_setter_getter posixpath_basename [] "admin" sample_app Hne).
Defined.

(** X11: [app.name = app.name] keeps the name: when reading the name
    gives [n], reading it again after assigning [n] gives [n] too, also
    when [n] is ["__main__"] itself. *)
Theorem name_assign_read_back
    (os_path_basename : string -> string) (sys_argv : list string)
    (self : Flask.t) (n : string) :
  Flask.name os_path_basename sys_argv self = Ok n ->
  Flask.name os_path_basename sys_argv (Flask.name_setter n self) = Ok n.
Proof.
  intros Hread. unfold Flask.name in *.
  cbn [Flask.name_setter Flask._name].
  destruct (String.eqb n "__main__") eqn:Hn; [|reflexivity].
  apply String.eqb_eq in Hn. subst n.
  destruct (String.eqb (Flask._name self) "__main__") eqn:Hs.
  - exact Hread.
  - apply String.eqb_neq in Hs. injection Hread as Hread. contradiction.
Qed.

Lemma name_assign_read_back_witness :
  Flask.name posixpath_basename ["/srv/app/__main__.py"]
    (Flask.name_setter "__main__" sample_app) = Ok "__main__" /\
  Flask.name posixpath_basename ["/srv/app/__main__.py"]
    (Flask.name_setter "__main__" (Flask.name_setter "__main__" sample_app)) =
    Ok "__main__".
Proof.
  assert (Hread : Flask.name posixpath_basename ["/srv/app/__main__.py"]
                    (Flask.name_setter "__main__" sample_app) = Ok "__main__")
    by reflexivity.
  split; [exact Hread|].
  exact (name_assign_read_back posixpath_basename ["/srv/app/__main__.py"]
           (Flask.name_setter "__main__" sample_app) "__main__" Hread).
Defined.

(** X12: reading [name] raises exactly when the stored name is
    ["__main__"] and [sys.argv] is empty, and the exception is then
    [IndexError]. *)
Theorem name_raises
    (os_path_basename : string -> string) (sys_argv : list string)
    (self : Flask.t) (e : exn) :
  Flask.name os_path_basename sys_argv self = Raise e <->
  Flask._name self = "__main__" /\ sys_argv = [] /\ e = IndexError.
Proof.
  unfold Flask.name, list_index.
  destruct (String.eqb (Flask._name self) "__main__") eqn:Hs.
  - apply String.eqb_eq in Hs. destruct sys_argv as [|script argv]; simpl.
    + split.
      * intros H. injection H as <-. auto.
      * intros (_ & _ & ->). reflexivity.
    + split; [discriminate|]. intros (_ & H & _). discriminate.
  - apply String.eqb_neq in Hs. split; [discriminate|].
    intros (H & _). contradiction.
Qed.

(** ** The name on a POSIX platform *)

Lemma has_char_String (c a : ascii) (s : string) :
  has_char c (String a s) <-> a = c \/ has_char c s.
Proof. reflexivity. Qed.

Lemma has_char_app_l (c : ascii) (s1 s2 : string) :
  has_char c s1 -> has_char c (s1 +:+ s2).
Proof.
  induction s1 as [|a s1 IH]; [intros []|].
  change (String a s1 +:+ s2) with (String a (s1 +:+ s2)).
  rewrite !has_char_String. intros [H|H]; [left; exact H|right; auto].
Qed.

Lemma str_drop_app (s1 s2 : string) :
  str_drop (String.length s1) (s1 +:+ s2) = s2.
Proof. induction s1 as [|a s1 IH]; [destruct s2; reflexivity|exact IH]. Qed.

(** [rfind] finds the last occurrence: nothing after it, or nothing at
    all. *)
Lemma rfind_spec (c : ascii) (s : string) :
  (rfind c s = (-1)%Z /\ ~ has_char c s) \/
  (exists pre post,
      s = pre +:+ String c post /\
      rfind c s = Z.of_nat (String.length pre) /\
      ~ has_char c post).
Proof.
  induction s as [|a s IH].
  - left. split; [reflexivity|]. intros [].
  - cbn [rfind].
    destruct IH as [[Hr Hno]|(pre & post & Hs & Hr & Hno)].
    + rewrite Hr. cbn [Z.leb Z.compare].
      destruct (Ascii.eqb a c) eqn:Hac.
      * apply Ascii.eqb_eq in Hac. subst a. right.
        exists "", s. split; [reflexivity|]. split; [reflexivity|exact Hno].
      * apply Ascii.eqb_neq in Hac. left. split; [reflexivity|].
        rewrite has_char_String. intros [H|H]; [exact (Hac H)|exact (Hno H)].
    + right. exists (String a pre), post. rewrite Hr.
      destruct (Z.leb_spec 0 (Z.of_nat (String.length pre))) as [_|Hlt];
        [|lia].
      split; [rewrite Hs; reflexivity|]. split; [|exact Hno].
      cbn [String.length]. lia.
Qed.

(** A path is a directory part, empty or ending with a slash, followed
    by its basename, which has no slash. *)
Lemma posixpath_basename_split (p : string) :
  exists dir,
    p = dir +:+ posixpath_basename p /\
    (dir = "" \/ exists d, dir = d +:+ "/") /\
    ~ has_char "/" (posixpath_basename p).
Proof.
  unfold posixpath_basename. cbv zeta.
  destruct (rfind_spec "/" p) as [[Hr Hno]|(pre & post & Hp & Hr & Hno)].
  - rewrite Hr. exists "".
    split; [reflexivity|]. split; [left; reflexivity|exact Hno].
  - rewrite Hr.
    replace (Z.to_nat (Z.of_nat (String.length pre) + 1))
      with (String.length (pre +:+ "/"))
      by (rewrite length_str_app; cbn [String.length]; lia).
    assert (Hp' : p = (pre +:+ "/") +:+ post).
    { rewrite Hp. clear. induction pre as [|a pre IH]; [reflexivity|].
      change (String a pre +:+ String "/" post)
        with (String a (pre +:+ String "/" post)).
      rewrite IH. reflexivity. }
    assert (Hdrop : str_drop (String.length (pre +:+ "/")) p = post)
      by (rewrite Hp'; apply str_drop_app).
    rewrite Hdrop.
    exists (pre +:+ "/"). split; [exact Hp'|]. split; [|exact Hno].
    right. exists pre. reflexivity.
Qed.

(** X13: with [posixpath.basename], a stored name ["__main__"] and a
    script path in [sys.argv[0]], reading [name] gives a name without a
    slash, and the script path is a directory part, empty or ending with a
    slash, followed by that name or by that name and [".py"]. *)
Theorem name_last_component
    (sys_argv : list string) (self : Flask.t) (script : string) :
  Flask._name self = "__main__" ->
  sys_argv !! 0 = Some script ->
  exists n dir,
    Flask.name posixpath_basename sys_argv self = Ok n /\
    ~ has_char "/" n /\
    (dir = "" \/ exists d, dir = d +:+ "/") /\
    (script = dir +:+ n \/ script = dir +:+ n +:+ ".py").
Proof.
  intros Hmain Hargv. unfold Flask.name, list_index.
  apply String.eqb_eq in Hmain. rewrite Hmain, Hargv. cbn [rbind].
  destruct (posixpath_basename_split script) as (dir & Hsplit & Hdir & Hno).
  destruct (endswith (posixpath_basename script) ".py") eqn:Hends.
  - apply endswith_inv in Hends as [stem Hstem].
    exists stem, dir. rewrite Hstem.
    rewrite slice_to_minus_app by reflexivity.
    split; [reflexivity|]. split; [|split; [exact Hdir|]].
    + intros Hin. apply Hno. rewrite Hstem. apply has_char_app_l. exact Hin.
    + right. rewrite <- Hstem. exact Hsplit.
  - exists (posixpath_basename script), dir.
    split; [reflexivity|]. split; [exact Hno|]. split; [exact Hdir|].
    left. exact Hsplit.
Qed.

Lemma name_last_component_witness :
  Flask._name (Flask.name_setter "__main__" sample_app) = "__main__" /\
  ["/srv/app/run.py"] !! 0 = Some "/srv/app/run.py" /\
  exists n dir,
    Flask.name posixpath_basename ["/srv/app/run.py"]
      (Flask.name_setter "__main__" sample_app) = Ok n /\
    ~ has_char "/" n /\
    (dir = "" \/ exists d, dir = d +:+ "/") /\
    ("/srv/app/run.py" = dir +:+ n \/ "/srv/app/run.py" = dir +:+ n +:+ ".py").
Proof.
  split; [reflexivity|]. split; [reflexivity|].
  apply (name_last_component ["/srv/app/run.py"]
           (Flask.name_setter "__main__" sample_app) "/srv/app/run.py");
    reflexivity.
Defined.

(** ** Which handlers a registration leaves *)

(** X14: after [_register_error_handler(E, h)] the registry has a handler
    for a class under a key exactly when it had one before or the key is
    [None] and the class is [E]. *)
Theorem register_has_handler
    (E : string) (h : value) (self : Flask.t) (key : option string)
    (E' : string) :
  has_handler (Flask._register_error_handler E h self) key E' <->
  has_handler self key E' \/ (key = None /\ E' = E).
Proof.
  split.
  - intros (inner & h' & Hk & HE). rewrite error_handlers_register in Hk.
    destruct (decide (key = None)) as [->|Hkey].
    + rewrite lookup_insert_eq in Hk. injection Hk as <-.
      destruct (decide (E' = E)) as [->|HneE]; [right; auto|]. left.
      rewrite lookup_insert_ne in HE by congruence.
      destruct (Flask._error_handlers self !! None) as [inner0|] eqn:Hnone.
      * exists inner0, h'. split; [exact Hnone|exact HE].
      * simpl in HE. rewrite lookup_empty in HE. discriminate.
    + rewrite lookup_insert_ne in Hk by congruence.
      left. exists inner, h'. split; [exact Hk|exact HE].
  - intros [Hold|[-> ->]].
    + apply register_keeps_handlers. exact Hold.
    + unfold has_handler. rewrite error_handlers_register, lookup_insert_eq.
      eexists _, h. split; [reflexivity|]. apply lookup_insert_eq.
Qed.

(** ** __repr__ *)

(** X15: [__repr__] raises exactly when reading [name] does, that is,
    with the stored name ["__main__"] and an empty [sys.argv], and then
    [IndexError]; for any other stored name it returns the class name and
    the [repr] of the stored name between ["<"] and [">"]. *)
Theorem repr_outcome
    (os_path_basename : string -> string) (sys_argv : list string)
    (class_name : string) (repr : string -> string) (self : Flask.t) :
  (forall e,
      Flask.__repr__ os_path_basename sys_argv class_name repr self = Raise e <->
      Flask._name self = "__main__" /\ sys_argv = [] /\ e = IndexError) /\
  (Flask._name self <> "__main__" ->
   Flask.__repr__ os_path_basename sys_argv class_name repr self =
     Ok ("<" +:+ class_name +:+ " " +:+ repr (Flask._name self) +:+ ">")).
Proof.
  split.
  - intros e. unfold Flask.__repr__, Flask.name, list_index.
    destruct (String.eqb (Flask._name self) "__main__") eqn:Hs.
    + apply String.eqb_eq in Hs. destruct sys_argv as [|script argv]; simpl.
      * split.
        -- intros H. injection H as <-. auto.
        -- intros (_ & _ & ->). reflexivity.
      * split; [discriminate|]. intros (_ & H & _). discriminate.
    + apply String.eqb_neq in Hs. split; [discriminate|].
      intros (H & _). contradiction.
  - intros Hne. unfold Flask.__repr__, Flask.name.
    apply String.eqb_neq in Hne. rewrite Hne. reflexivity.
Qed.

Lemma repr_outcome_witness :
  Flask._name sample_app <> "__main__" /\
  Flask.__repr__ posixpath_basename [] "Flask" (fun s => "'" +:+ s +:+ "'")
    sample_app = Ok "<Flask 'app'>".
Proof.
  assert (Hne : Flask._name sample_app <> "__main__") by discriminate.
  split; [exact Hne|].
  exact (proj2 (repr_outcome posixpath_basename [] "Flask"
                  (fun s => "'" +:+ s +:+ "'") sample_app) Hne).
Defined.
